(** * RobotClientAPI: the [RobotAPI] facade of the fleet adapter template

    A shallow embedding of [fleet_adapter_template/RobotClientAPI.py].  Every
    method of the Python class is an HTTP call wrapped in [try]/[except]; the
    embedding keeps the three effects the methods have: attribute writes on
    [self], requests handed to the [requests] library, and lines printed to
    the console.  The remote server is a function chosen by the environment,
    so every theorem below holds for all servers. *)

From Stdlib Require Import PrimFloat ZArith.
From stdpp Require Import gmap strings list.

Open Scope Z_scope.

Set Warnings "-register-all,-inexact-float".

(** ** Python values

    The values that flow through the class: what [response.json()] can
    produce, what [pose] holds and what the methods return.  A [dict] with
    string keys is a finite map. *)

Inductive pyobj : Type :=
  | PyNone
  | PyBool (b : bool)
  | PyInt (z : Z)
  | PyFloat (f : float)
  | PyStr (s : string)
  | PyList (l : list pyobj)
  | PyDict (d : gmap string pyobj).

(** The exceptions that can occur in the methods.  All of them derive from
    Python's [Exception], so an [except Exception] clause catches each one.
    The first three come out of [requests.get] / [requests.post], the fourth
    out of [response.json()], the others out of subscripting. *)

Inductive exn : Type :=
  | ConnectionError
  | Timeout
  | RequestException (msg : string)
  | JSONDecodeError
  | KeyError (key : string)
  | TypeError
  | IndexError.

(** ** The wire *)

Inductive http_method : Type := GET | POST.

(** A call [requests.get(url)] or [requests.post(url, json=body)]. *)
Record request : Type := Request {
  meth : http_method;
  url : string;
  json : option pyobj
}.

(** What the class reads of a [requests.Response]: the status code, and the
    body as the library's JSON decoder sees it ([None] when the body is not
    JSON, in which case [response.json()] raises). *)
Record response : Type := Response {
  status_code : Z;
  decoded : option pyobj
}.

Inductive outcome : Type :=
  | Responds (r : response)
  | Fails (e : exn).

(** The server and the network between: given the requests made so far and
    the present one, either a response arrives or the library raises. *)
Definition network : Type := list request -> request -> outcome.

(** ** The object and the world around it *)

Record RobotAPI : Type := mkRobotAPI {
  prefix : string;
  user : string;
  password : string;
  connected : bool
}.

(** An argument of [print]. *)
Inductive printed : Type :=
  | PStr (s : string)
  | PExn (e : exn)
  | PObj (o : pyobj)
  | PResponse (r : response).

Record world : Type := World {
  self : RobotAPI;
  sent : list request;
  stdout : list printed
}.

(** ** Computations: state over [world], with exceptions *)

Inductive result (A : Type) : Type :=
  | Return (a : A)
  | Raise (e : exn).
Arguments Return {A} a.
Arguments Raise {A} e.

Definition M (A : Type) : Type := world -> result A * world.

Definition ret {A} (a : A) : M A := fun w => (Return a, w).

Definition raise {A} (e : exn) : M A := fun w => (Raise e, w).

Definition bind {A B} (m : M A) (k : A -> M B) : M B :=
  fun w =>
    match m w with
    | (Return a, w') => k a w'
    | (Raise e, w') => (Raise e, w')
    end.

(** [try: m except Exception as e: h e] *)
Definition try_except {A} (m : M A) (h : exn -> M A) : M A :=
  fun w =>
    match m w with
    | (Return a, w') => (Return a, w')
    | (Raise e, w') => h e w'
    end.

Notation "x <- m ;; k" := (bind m (fun x => k))
  (at level 100, m at next level, right associativity).
Notation "m ;; k" := (bind m (fun _ => k))
  (at level 100, right associativity).

Definition get_self : M RobotAPI := fun w => (Return (self w), w).

Definition set_self (f : RobotAPI -> RobotAPI) : M unit :=
  fun w => (Return tt, World (f (self w)) (sent w) (stdout w)).

Definition set_prefix (v : string) : M unit :=
  set_self (fun s => mkRobotAPI v (user s) (password s) (connected s)).
Definition set_user (v : string) : M unit :=
  set_self (fun s => mkRobotAPI (prefix s) v (password s) (connected s)).
Definition set_password (v : string) : M unit :=
  set_self (fun s => mkRobotAPI (prefix s) (user s) v (connected s)).
Definition set_connected (v : bool) : M unit :=
  set_self (fun s => mkRobotAPI (prefix s) (user s) (password s) v).

Definition print (p : printed) : M unit :=
  fun w => (Return tt, World (self w) (sent w) (stdout w ++ [p])).

(** [response.json()] *)
Definition response_json (r : response) : M pyobj :=
  match decoded r with
  | Some v => ret v
  | None => raise JSONDecodeError
  end.

(** [o[key]] for a string key: a [dict] is looked up, everything else cannot
    be subscripted by a string. *)
Definition getitem (o : pyobj) (key : string) : M pyobj :=
  match o with
  | PyDict d =>
      match d !! key with
      | Some v => ret v
      | None => raise (KeyError key)
      end
  | _ => raise TypeError
  end.

(** [l[i]] for a list and an index that is not negative. *)
Definition list_getitem (l : list pyobj) (i : nat) : M pyobj :=
  match l !! i with
  | Some v => ret v
  | None => raise IndexError
  end.

Section Transport.

Variable net : network.

Definition perform (rq : request) : M response :=
  fun w =>
    let w' := World (self w) (sent w ++ [rq]) (stdout w) in
    match net (sent w) rq with
    | Responds r => (Return r, w')
    | Fails e => (Raise e, w')
    end.

Definition requests_get (u : string) : M response :=
  perform (Request GET u None).

Definition requests_post (u : string) (body : pyobj) : M response :=
  perform (Request POST u (Some body)).

(** ** The methods of [RobotAPI], in the order of the source *)

Definition check_connection : M bool :=
  s <- get_self ;;
  let url := prefix s +:+ "/health" in
  try_except
    (response <- requests_get url ;;
     if status_code response =? 200 then ret true else ret false)
    (fun e => print (PExn e) ;; ret false).

Definition __init__ (prefix user password : string) : M unit :=
  set_prefix prefix ;;
  set_user user ;;
  set_password password ;;
  set_connected false ;;
  connected <- check_connection ;;
  if connected : bool then
    print (PStr "Successfully able to query API server") ;;
    set_connected true
  else
    print (PStr "Unable to query API server").

Definition position (robot_name : string) : M pyobj :=
  s <- get_self ;;
  let url := prefix s +:+ "/current_position" in
  try_except
    (response <- requests_get url ;;
     if status_code response =? 200 then
       req <- response_json response ;;
       getitem req "position"
     else ret PyNone)
    (fun e => print (PExn e) ;; ret PyNone).

Definition navigate (robot_name : string) (pose : list pyobj)
    (map_name : string) : M bool :=
  s <- get_self ;;
  let url := prefix s +:+ "/navigate" in
  x <- list_getitem pose 0 ;;
  y <- list_getitem pose 1 ;;
  theta <- list_getitem pose 2 ;;
  let position := PyDict {[ "x" := x; "y" := y; "theta" := theta ]} in
  print (PObj (PyList pose)) ;;
  try_except
    (response <- requests_post url position ;;
     if status_code response =? 200 then ret true else ret false)
    (fun e => print (PExn e) ;; ret false).

Definition start_process (robot_name process map_name : string) : M bool :=
  try_except
    (print (PStr "process_start") ;; ret true)
    (fun e => print (PExn e) ;; ret false).

Definition stop (robot_name : string) : M bool :=
  s <- get_self ;;
  let url := prefix s +:+ "/stop_nav" in
  let data := PyDict {[ "bool" := PyBool true ]} in
  try_except
    (response <- requests_post url data ;;
     if status_code response =? 200 then ret true else ret false)
    (fun e => print (PExn e) ;; ret false).

Definition navigation_remaining_duration (robot_name : string) : M pyobj :=
  s <- get_self ;;
  let url := prefix s +:+ "/nav_remaining_duration" in
  try_except
    (response <- requests_get url ;;
     if status_code response =? 200 then
       res <- response_json response ;;
       getitem res "duration"
     else ret (PyFloat 0))
    (fun e => print (PExn e) ;; ret (PyFloat 0)).

Definition navigation_completed (robot_name : string) : M bool :=
  s <- get_self ;;
  let url := prefix s +:+ "/nav_stat" in
  try_except
    (response <- requests_get url ;;
     print (PResponse response) ;;
     if status_code response =? 200 then ret true else ret false)
    (fun e => print (PExn e) ;; ret false).

Definition process_completed (robot_name : string) : M bool :=
  try_except
    (print (PStr "process_completed") ;; ret true)
    (fun e => print (PExn e) ;; ret false).

Definition battery_soc (robot_name : string) : M pyobj :=
  s <- get_self ;;
  let url := prefix s +:+ "/soc" in
  try_except
    (response <- requests_get url ;;
     if status_code response =? 200 then
       res <- response_json response ;;
       getitem res "soc"
     else ret (PyFloat 0))
    (fun e => print (PExn e) ;; ret (PyFloat 0)).

End Transport.

(** ** Calls as data

    One constructor per public method, with the method's arguments, so that
    statements about "every operation" can quantify over [call]. *)

Inductive call : Type :=
  | CheckConnection
  | Position (robot_name : string)
  | Navigate (robot_name : string) (pose : list pyobj) (map_name : string)
  | StartProcess (robot_name process map_name : string)
  | Stop (robot_name : string)
  | NavigationRemainingDuration (robot_name : string)
  | NavigationCompleted (robot_name : string)
  | ProcessCompleted (robot_name : string)
  | BatterySoc (robot_name : string).

(** A method that returns a Python [bool], seen as returning an object. *)
Definition as_object (m : M bool) : M pyobj := b <- m ;; ret (PyBool b).

Definition invoke (net : network) (c : call) : M pyobj :=
  match c with
  | CheckConnection => as_object (check_connection net)
  | Position n => position net n
  | Navigate n pose map => as_object (navigate net n pose map)
  | StartProcess n p map => as_object (start_process n p map)
  | Stop n => as_object (stop net n)
  | NavigationRemainingDuration n => navigation_remaining_duration net n
  | NavigationCompleted n => as_object (navigation_completed net n)
  | ProcessCompleted n => as_object (process_completed n)
  | BatterySoc n => battery_soc net n
  end.

(** A caller's session: calls made one after the other on the same object.
    The results are collected; the first exception that escapes ends the
    session. *)
Fixpoint session (net : network) (cs : list call) : M (list pyobj) :=
  match cs with
  | [] => ret []
  | c :: cs' =>
      v <- invoke net c ;;
      vs <- session net cs' ;;
      ret (v :: vs)
  end.

(** ** Vocabulary of the specification *)

(** The failure sentinel the operations table gives for each operation. *)
Definition sentinel (c : call) : pyobj :=
  match c with
  | Position _ => PyNone
  | NavigationRemainingDuration _ | BatterySoc _ => PyFloat 0
  | CheckConnection | Navigate _ _ _ | StartProcess _ _ _ | Stop _
  | NavigationCompleted _ | ProcessCompleted _ => PyBool false
  end.

(** The wire contract: the request an operation makes on object [s], if it
    makes one.  [navigate] reads three elements of the pose before it builds
    the request. *)
Definition wire_request (s : RobotAPI) (c : call) : option request :=
  match c with
  | CheckConnection => Some (Request GET (prefix s +:+ "/health") None)
  | Position _ => Some (Request GET (prefix s +:+ "/current_position") None)
  | Navigate _ (x :: y :: theta :: _) _ =>
      Some (Request POST (prefix s +:+ "/navigate")
              (Some (PyDict {[ "x" := x; "y" := y; "theta" := theta ]})))
  | Navigate _ _ _ => None
  | StartProcess _ _ _ => None
  | Stop _ =>
      Some (Request POST (prefix s +:+ "/stop_nav")
              (Some (PyDict {[ "bool" := PyBool true ]})))
  | NavigationRemainingDuration _ =>
      Some (Request GET (prefix s +:+ "/nav_remaining_duration") None)
  | NavigationCompleted _ => Some (Request GET (prefix s +:+ "/nav_stat") None)
  | ProcessCompleted _ => None
  | BatterySoc _ => Some (Request GET (prefix s +:+ "/soc") None)
  end.

(** A transport-level failure of one request: the library raised (connection
    refused, timeout, ...), or a response came back whose status is not 200.
    Every non-success status (outside 200..299) is such a status. *)
Definition transport_failure (o : outcome) : Prop :=
  match o with
  | Fails _ => True
  | Responds r => status_code r <> 200
  end.

(** The same robot-level call under another robot name. *)
Definition with_robot_name (n : string) (c : call) : call :=
  match c with
  | CheckConnection => CheckConnection
  | Position _ => Position n
  | Navigate _ pose map => Navigate n pose map
  | StartProcess _ p map => StartProcess n p map
  | Stop _ => Stop n
  | NavigationRemainingDuration _ => NavigationRemainingDuration n
  | NavigationCompleted _ => NavigationCompleted n
  | ProcessCompleted _ => ProcessCompleted n
  | BatterySoc _ => BatterySoc n
  end.

(** A number between 0.0 and 1.0 (a Python [int] or [float]). *)
Definition is_fraction (o : pyobj) : bool :=
  match o with
  | PyInt z => (0 <=? z) && (z <=? 1)
  | PyFloat f => (PrimFloat.leb 0 f && PrimFloat.leb f 1)%bool
  | _ => false
  end.

(** A number that is not negative. *)
Definition is_nonnegative (o : pyobj) : bool :=
  match o with
  | PyInt z => 0 <=? z
  | PyFloat f => PrimFloat.leb 0 f
  | _ => false
  end.

(** ** Some servers and worlds to run the methods on *)

(** An object whose attributes hold nothing yet, and a quiet world. *)
Definition blank : RobotAPI := mkRobotAPI "" "" "" false.
Definition fresh : world := World blank [] [].

(** The world after [RobotAPI("http://robot", "admin", "secret")] found the
    server up. *)
Definition robot : RobotAPI := mkRobotAPI "http://robot" "admin" "secret" true.
Definition ready : world := World robot [] [].

(** Nothing listens at the address. *)
Definition net_down : network := fun _ _ => Fails ConnectionError.

(** Every request is answered with the given status and decoded body. *)
Definition net_reply (status : Z) (body : option pyobj) : network :=
  fun _ _ => Responds (Response status body).

(** A server that follows the wire contract of the specification. *)
Definition net_robot : network :=
  fun _ rq =>
    if String.eqb (url rq) "http://robot/current_position" then
      Responds (Response 200 (Some (PyDict
        {[ "position" := PyList [PyFloat 1; PyFloat 2; PyFloat 0.5] ]})))
    else if String.eqb (url rq) "http://robot/soc" then
      Responds (Response 200 (Some (PyDict {[ "soc" := PyFloat 0.75 ]})))
    else if String.eqb (url rq) "http://robot/nav_remaining_duration" then
      Responds (Response 200 (Some (PyDict {[ "duration" := PyFloat 12.5 ]})))
    else Responds (Response 200 None).

(** A server that answers the battery query with the given value. *)
Definition net_soc (v : pyobj) : network :=
  net_reply 200 (Some (PyDict {[ "soc" := v ]})).

(** A server that answers the remaining-duration query with the given value. *)
Definition net_duration (v : pyobj) : network :=
  net_reply 200 (Some (PyDict {[ "duration" := v ]})).

(** ** What a method makes of the outcome of its request *)

(** The [if response.status_code == 200] test of the command methods, with
    the [except] branch folded in. *)
Definition accepted (o : outcome) : bool :=
  match o with
  | Responds r => status_code r =? 200
  | Fails _ => false
  end.

(** The value the query methods take out of a response: [body[key]] when the
    status is 200, the body decodes to a [dict] and the key is there; the
    default otherwise. *)
Definition field_or (key : string) (default : pyobj) (o : outcome) : pyobj :=
  match o with
  | Responds r =>
      if status_code r =? 200 then
        match decoded r with
        | Some (PyDict d) =>
            match d !! key with
            | Some v => v
            | None => default
            end
        | _ => default
        end
      else default
  | Fails _ => default
  end.

(** A body from which [body[key]] cannot be had: it is not JSON, or not a
    [dict], or a [dict] without the key. *)
Definition malformed (key : string) (body : option pyobj) : Prop :=
  match body with
  | Some (PyDict d) => d !! key = None
  | _ => True
  end.

(** What a query method prints while it reads [body[key]] out of the answer:
    the exception its [except] clause caught, if it caught one. *)
Definition diagnostics (key : string) (o : outcome) : list printed :=
  match o with
  | Fails e => [PExn e]
  | Responds r =>
      if status_code r =? 200 then
        match decoded r with
        | None => [PExn JSONDecodeError]
        | Some (PyDict d) =>
            match d !! key with
            | Some _ => []
            | None => [PExn (KeyError key)]
            end
        | Some _ => [PExn TypeError]
        end
      else []
  end.

(** What the constructor prints, given the outcome of its probe. *)
Definition probe_report (o : outcome) : list printed :=
  match o with
  | Fails e => [PExn e; PStr "Unable to query API server"]
  | Responds r =>
      if status_code r =? 200
      then [PStr "Successfully able to query API server"]
      else [PStr "Unable to query API server"]
  end.


(** Two objects that differ in credentials and connected flag only. *)
Definition robot_guest : RobotAPI :=
  mkRobotAPI "http://robot" "guest" "" false.

(** A server that reports an empty battery, no time left and no pose. *)
Definition net_zero : network :=
  net_reply 200 (Some (PyDict
    {[ "soc" := PyFloat 0; "duration" := PyFloat 0; "position" := PyNone ]})).

(** * Properties *)

(** ** The methods, one request at a time *)

Ltac unfold_monad :=
  unfold as_object, requests_get, requests_post, perform, try_except, bind,
    ret, raise, print, get_self, set_prefix, set_user, set_password,
    set_connected, set_self, response_json, getitem, list_getitem.

(** After a method is unfolded, what is left hangs on the outcome of the
    request, the status test and the shape of the body. *)
Ltac split_outcome :=
  repeat match goal with
    | |- context [match ?net ?h ?rq with Responds _ => _ | Fails _ => _ end] =>
        destruct (net h rq) as [[? [[]|]]|] eqn:?; cbn
    | |- context [if ?a =? ?b then _ else _] => destruct (Z.eqb_spec a b); cbn
    | |- context [match ?d !! ?k with Some _ => _ | None => _ end] =>
        destruct (d !! k) eqn:?; cbn
    end.

Section Methods.

Variable net : network.
Variable w : world.

(** The three things a caller can observe of a run: the result, the object
    afterwards, the requests on the wire afterwards. *)
Definition observed {A} (run : result A * world) (res : result A)
    (rqs : list request) : Prop :=
  fst run = res /\ self (snd run) = self w /\ sent (snd run) = sent w ++ rqs.

Lemma check_connection_run :
  let rq := Request GET (prefix (self w) +:+ "/health") None in
  observed (check_connection net w) (Return (accepted (net (sent w) rq))) [rq].
Proof.
  unfold observed, check_connection. unfold_monad. cbn.
  split_outcome; auto.
Qed.

Lemma position_run n :
  let rq := Request GET (prefix (self w) +:+ "/current_position") None in
  observed (position net n w)
    (Return (field_or "position" PyNone (net (sent w) rq))) [rq].
Proof.
  unfold observed, position, field_or. unfold_monad. cbn.
  split_outcome; auto.
Qed.

Lemma navigate_run n x y theta rest map :
  let rq := Request POST (prefix (self w) +:+ "/navigate")
              (Some (PyDict {[ "x" := x; "y" := y; "theta" := theta ]})) in
  observed (navigate net n (x :: y :: theta :: rest) map w)
    (Return (accepted (net (sent w) rq))) [rq].
Proof.
  unfold observed, navigate. unfold_monad. cbn.
  split_outcome; auto.
Qed.

Lemma navigate_short n pose map :
  (length pose < 3)%nat ->
  observed (navigate net n pose map w) (Raise IndexError) [].
Proof.
  intros Hlen. unfold observed, navigate. unfold_monad.
  destruct pose as [|x [|y [|theta rest]]]; cbn in *;
    rewrite ?app_nil_r; auto; lia.
Qed.

Lemma start_process_run n p map :
  observed (start_process n p map w) (Return true) [].
Proof. unfold observed. cbn. rewrite app_nil_r. auto. Qed.

Lemma stop_run n :
  let rq := Request POST (prefix (self w) +:+ "/stop_nav")
              (Some (PyDict {[ "bool" := PyBool true ]})) in
  observed (stop net n w) (Return (accepted (net (sent w) rq))) [rq].
Proof.
  unfold observed, stop. unfold_monad. cbn.
  split_outcome; auto.
Qed.

Lemma navigation_remaining_duration_run n :
  let rq := Request GET (prefix (self w) +:+ "/nav_remaining_duration") None in
  observed (navigation_remaining_duration net n w)
    (Return (field_or "duration" (PyFloat 0) (net (sent w) rq))) [rq].
Proof.
  unfold observed, navigation_remaining_duration, field_or. unfold_monad. cbn.
  split_outcome; auto.
Qed.

Lemma navigation_completed_run n :
  let rq := Request GET (prefix (self w) +:+ "/nav_stat") None in
  observed (navigation_completed net n w)
    (Return (accepted (net (sent w) rq))) [rq].
Proof.
  unfold observed, navigation_completed. unfold_monad. cbn.
  split_outcome; auto.
Qed.

Lemma process_completed_run n :
  observed (process_completed n w) (Return true) [].
Proof. unfold observed. cbn. rewrite app_nil_r. auto. Qed.

Lemma battery_soc_run n :
  let rq := Request GET (prefix (self w) +:+ "/soc") None in
  observed (battery_soc net n w)
    (Return (field_or "soc" (PyFloat 0) (net (sent w) rq))) [rq].
Proof.
  unfold observed, battery_soc, field_or. unfold_monad. cbn.
  split_outcome; auto.
Qed.

End Methods.


Lemma accepted_true o :
  accepted o = true <-> exists r, o = Responds r /\ status_code r = 200.
Proof.
  destruct o as [r|e]; cbn.
  - rewrite Z.eqb_eq. split.
    + intros H200. exists r. auto.
    + intros (r' & Hr & H200). congruence.
  - split; [discriminate | intros (r & Hr & _); discriminate].
Qed.

Lemma accepted_failure o : transport_failure o -> accepted o = false.
Proof.
  destruct o as [r|e]; cbn; [|reflexivity].
  intros Hne. apply Z.eqb_neq, Hne.
Qed.

Lemma field_or_failure key default o :
  transport_failure o -> field_or key default o = default.
Proof.
  destruct o as [r|e]; cbn; [|reflexivity].
  intros Hne. apply Z.eqb_neq in Hne. rewrite Hne. reflexivity.
Qed.

Lemma field_or_found key default r d v :
  status_code r = 200 -> decoded r = Some (PyDict d) -> d !! key = Some v ->
  field_or key default (Responds r) = v.
Proof.
  intros H200 Hbody Hkey. cbn. rewrite H200, Hbody, Hkey. reflexivity.
Qed.

Lemma field_or_malformed key default r :
  malformed key (decoded r) -> field_or key default (Responds r) = default.
Proof.
  unfold malformed. cbn. intros Hbad.
  destruct (status_code r =? 200); [|reflexivity].
  destruct (decoded r) as [[]|]; try reflexivity.
  rewrite Hbad. reflexivity.
Qed.

Lemma as_object_run (m : M bool) w b rqs :
  observed w (m w) (Return b) rqs ->
  observed w (as_object m w) (Return (PyBool b)) rqs.
Proof.
  unfold observed, as_object, bind, ret.
  destruct (m w) as [[b'|e] w']; cbn; intros (Hres & Hself & Hsent);
    [injection Hres as -> | discriminate]; auto.
Qed.

(** Whatever is called and whatever comes back, the attributes of the object
    stay as they were. *)
Lemma invoke_self net c w : self (snd (invoke net c w)) = self w.
Proof.
  destruct c as [|n|n pose map|n p map|n|n|n|n|n]; cbn [invoke].
  - eapply as_object_run, check_connection_run.
  - apply position_run.
  - destruct pose as [|x [|y [|theta rest]]];
      try (eapply as_object_run, navigate_run); reflexivity.
  - eapply as_object_run, start_process_run.
  - eapply as_object_run, stop_run.
  - apply navigation_remaining_duration_run.
  - eapply as_object_run, navigation_completed_run.
  - eapply as_object_run, process_completed_run.
  - apply battery_soc_run.
Qed.

(** [wire_request] is what goes on the wire: a call makes the request the
    table gives, once, and a call without an entry makes none. *)
Lemma invoke_sent net c w :
  sent (snd (invoke net c w)) = sent w ++ option_list (wire_request (self w) c).
Proof.
  destruct c as [|n|n pose map|n p map|n|n|n|n|n]; cbn [invoke wire_request].
  - eapply as_object_run, check_connection_run.
  - apply position_run.
  - destruct pose as [|x [|y [|theta rest]]];
      try (eapply as_object_run, navigate_run);
      cbn; rewrite app_nil_r; reflexivity.
  - eapply as_object_run, start_process_run.
  - eapply as_object_run, stop_run.
  - apply navigation_remaining_duration_run.
  - eapply as_object_run, navigation_completed_run.
  - eapply as_object_run, process_completed_run.
  - apply battery_soc_run.
Qed.

Lemma session_self net cs : forall w, self (snd (session net cs w)) = self w.
Proof.
  induction cs as [|c cs IH]; intros w; [reflexivity|].
  cbn [session]. unfold bind at 1.
  pose proof (invoke_self net c w) as Hc.
  destruct (invoke net c w) as [[v|e] w1]; cbn in Hc |- *; [|exact Hc].
  unfold bind at 1. specialize (IH w1).
  destruct (session net cs w1) as [[vs|e] w2]; cbn in IH |- *; congruence.
Qed.

Lemma init_run net p u pw w :
  let rq := Request GET (p +:+ "/health") None in
  fst (__init__ net p u pw w) = Return tt /\
  self (snd (__init__ net p u pw w)) =
    mkRobotAPI p u pw (accepted (net (sent w) rq)) /\
  sent (snd (__init__ net p u pw w)) = sent w ++ [rq].
Proof.
  unfold __init__, check_connection. unfold_monad. cbn.
  split_outcome; auto.
Qed.

(** ** The claims *)

(** C1, amended.  For every operation that makes a request (check_connection,
    position, navigate with a pose of at least three elements, stop,
    navigation_remaining_duration, navigation_completed, battery_soc) and
    every transport-level failure of that request (the library raises, or
    the status is not 200), the operation returns exactly its failure
    sentinel and nothing is raised.  start_process and process_completed
    make no request and return true whatever the transport does. *)
Theorem failure_yields_sentinel net w :
  (forall c rq,
     wire_request (self w) c = Some rq ->
     transport_failure (net (sent w) rq) ->
     fst (invoke net c w) = Return (sentinel c)) /\
  (forall n p map, fst (invoke net (StartProcess n p map) w) = Return (PyBool true)) /\
  (forall n, fst (invoke net (ProcessCompleted n) w) = Return (PyBool true)).
Proof.
  split; [|split; reflexivity].
  intros c rq Hrq Hfail.
  destruct c as [|n|n pose map|n p map|n|n|n|n|n];
    cbn [wire_request] in Hrq; cbn [sentinel invoke];
    try discriminate;
    try (injection Hrq as <-).
  - rewrite <- (accepted_failure _ Hfail).
    eapply as_object_run, check_connection_run.
  - rewrite <- (field_or_failure "position" PyNone _ Hfail).
    apply position_run.
  - destruct pose as [|x [|y [|theta rest]]]; try discriminate.
    injection Hrq as <-.
    rewrite <- (accepted_failure _ Hfail).
    eapply as_object_run, navigate_run.
  - rewrite <- (accepted_failure _ Hfail).
    eapply as_object_run, stop_run.
  - rewrite <- (field_or_failure "duration" (PyFloat 0) _ Hfail).
    apply navigation_remaining_duration_run.
  - rewrite <- (accepted_failure _ Hfail).
    eapply as_object_run, navigation_completed_run.
  - rewrite <- (field_or_failure "soc" (PyFloat 0) _ Hfail).
    apply battery_soc_run.
Qed.

Lemma failure_yields_sentinel_witness :
  fst (invoke net_down (Position "r1") ready) = Return PyNone /\
  fst (invoke (net_reply 503 None) (BatterySoc "r1") ready) = Return (PyFloat 0).
Proof.
  split.
  - apply (proj1 (failure_yields_sentinel net_down ready) (Position "r1")
             (Request GET "http://robot/current_position" None)).
    + reflexivity.
    + exact I.
  - apply (proj1 (failure_yields_sentinel (net_reply 503 None) ready)
             (BatterySoc "r1") (Request GET "http://robot/soc" None)).
    + reflexivity.
    + cbn. discriminate.
Defined.

(** C1 as written fails for the two stubs: with nothing listening at the
    address, so that every request fails, start_process still returns true,
    while the table gives false as its failure sentinel. *)
Lemma start_process_ignores_transport :
  (forall h rq, transport_failure (net_down h rq)) /\
  fst (invoke net_down (StartProcess "r1" "clean" "L1") ready)
    = Return (PyBool true) /\
  sentinel (StartProcess "r1" "clean" "L1") = PyBool false.
Proof. split; [intros h rq; exact I | split; reflexivity]. Qed.

(** C2.  Construction always completes: [__init__] returns normally for
    every server and stores the three arguments; when the probe raises (the
    address cannot be reached) the connected flag is false afterwards, and
    when the probe is answered with status 200 the flag is true. *)
Theorem construction_never_fails net p u pw w :
  fst (__init__ net p u pw w) = Return tt /\
  prefix (self (snd (__init__ net p u pw w))) = p /\
  user (self (snd (__init__ net p u pw w))) = u /\
  password (self (snd (__init__ net p u pw w))) = pw /\
  (forall e,
     net (sent w) (Request GET (p +:+ "/health") None) = Fails e ->
     connected (self (snd (__init__ net p u pw w))) = false) /\
  (forall r,
     net (sent w) (Request GET (p +:+ "/health") None) = Responds r ->
     status_code r = 200 ->
     connected (self (snd (__init__ net p u pw w))) = true).
Proof.
  destruct (init_run net p u pw w) as (Hres & Hself & _).
  rewrite Hself. cbn [prefix user password connected].
  do 4 (split; [auto|]). split.
  - intros e ->. reflexivity.
  - intros r -> H200. cbn. rewrite H200. reflexivity.
Qed.

Lemma construction_never_fails_witness :
  fst (__init__ net_down "http://robot" "admin" "secret" fresh) = Return tt /\
  connected (self (snd (__init__ net_down "http://robot" "admin" "secret" fresh)))
    = false /\
  connected (self (snd (__init__ net_robot "http://robot" "admin" "secret" fresh)))
    = true.
Proof.
  split; [|split].
  - apply (construction_never_fails net_down "http://robot" "admin" "secret" fresh).
  - apply (construction_never_fails net_down "http://robot" "admin" "secret" fresh)
      with (e := ConnectionError).
    reflexivity.
  - apply (construction_never_fails net_robot "http://robot" "admin" "secret" fresh)
      with (r := Response 200 None); reflexivity.
Defined.

(** C3.  check_connection makes one GET request to /health under the
    configured base address, and returns true if and only if that request
    is answered with status 200; otherwise (another status, or an exception)
    it returns false. *)
Theorem check_connection_iff_200 net w :
  exists b,
    fst (check_connection net w) = Return b /\
    sent (snd (check_connection net w)) =
      sent w ++ [Request GET (prefix (self w) +:+ "/health") None] /\
    (b = true <->
       exists r,
         net (sent w) (Request GET (prefix (self w) +:+ "/health") None)
           = Responds r /\
         status_code r = 200).
Proof.
  destruct (check_connection_run net w) as (Hres & _ & Hsent).
  eexists. split; [exact Hres|]. split; [exact Hsent|].
  apply accepted_true.
Qed.

(** C4.  position hands back the server's pose unchanged: when GET
    /current_position is answered with status 200 and a JSON object that has
    the key "position", the value under that key is returned as it is (so a
    list [x, y, theta] comes back as that list); for another status, an
    exception, or a body from which the key cannot be read, the result is
    None. *)
Theorem position_round_trip net n w :
  (forall r d v,
     net (sent w) (Request GET (prefix (self w) +:+ "/current_position") None)
       = Responds r ->
     status_code r = 200 ->
     decoded r = Some (PyDict d) ->
     d !! "position" = Some v ->
     fst (position net n w) = Return v) /\
  (forall r,
     net (sent w) (Request GET (prefix (self w) +:+ "/current_position") None)
       = Responds r ->
     status_code r <> 200 ->
     fst (position net n w) = Return PyNone) /\
  (forall e,
     net (sent w) (Request GET (prefix (self w) +:+ "/current_position") None)
       = Fails e ->
     fst (position net n w) = Return PyNone) /\
  (forall r,
     net (sent w) (Request GET (prefix (self w) +:+ "/current_position") None)
       = Responds r ->
     malformed "position" (decoded r) ->
     fst (position net n w) = Return PyNone).
Proof.
  destruct (position_run net w n) as (Hres & _ & _). rewrite Hres.
  split; [|split; [|split]].
  - intros r d v -> H200 Hbody Hkey. f_equal. eapply field_or_found; eauto.
  - intros r -> Hne. f_equal. apply field_or_failure. exact Hne.
  - intros e ->. reflexivity.
  - intros r -> Hbad. f_equal. apply field_or_malformed. exact Hbad.
Qed.

Lemma position_round_trip_witness :
  fst (position net_robot "r1" ready)
    = Return (PyList [PyFloat 1; PyFloat 2; PyFloat 0.5]) /\
  fst (position (net_reply 404 None) "r1" ready) = Return PyNone /\
  fst (position net_down "r1" ready) = Return PyNone /\
  fst (position (net_reply 200 (Some (PyDict ∅))) "r1" ready) = Return PyNone.
Proof.
  split; [|split; [|split]].
  - eapply (proj1 (position_round_trip net_robot "r1" ready)); reflexivity.
  - eapply (proj1 (proj2 (position_round_trip (net_reply 404 None) "r1" ready)));
      [reflexivity | cbn; discriminate].
  - eapply (proj1 (proj2 (proj2 (position_round_trip net_down "r1" ready))));
      reflexivity.
  - eapply (proj2 (proj2 (proj2
      (position_round_trip (net_reply 200 (Some (PyDict ∅))) "r1" ready))));
      reflexivity.
Defined.

(** C5.  For every pose [x, y, theta] of three elements, navigate makes
    exactly one request, a POST to /navigate under the base address whose
    JSON body is the object with "x", "y" and "theta" set to the three
    elements, and returns true exactly when the answer has status 200, false
    otherwise. *)
Theorem navigate_posts_pose net n x y theta map w :
  exists b,
    fst (navigate net n [x; y; theta] map w) = Return b /\
    sent (snd (navigate net n [x; y; theta] map w)) =
      sent w ++
        [Request POST (prefix (self w) +:+ "/navigate")
           (Some (PyDict {[ "x" := x; "y" := y; "theta" := theta ]}))] /\
    (b = true <->
       exists r,
         net (sent w)
           (Request POST (prefix (self w) +:+ "/navigate")
              (Some (PyDict {[ "x" := x; "y" := y; "theta" := theta ]})))
           = Responds r /\
         status_code r = 200).
Proof.
  destruct (navigate_run net w n x y theta [] map) as (Hres & _ & Hsent).
  eexists. split; [exact Hres|]. split; [exact Hsent|].
  apply accepted_true.
Qed.

(** The case the specification spells out: the pose [3.0, 4.0, 1.57], a
    server that accepts. *)
Example navigate_accepted :
  navigate net_robot "r1" [PyFloat 3; PyFloat 4; PyFloat 1.57] "L1" ready =
    (Return true,
     World robot
       [Request POST "http://robot/navigate"
          (Some (PyDict {[ "x" := PyFloat 3; "y" := PyFloat 4;
                           "theta" := PyFloat 1.57 ]}))]
       [PObj (PyList [PyFloat 3; PyFloat 4; PyFloat 1.57])]).
Proof. reflexivity. Qed.

(** A pose with fewer than three elements never reaches the wire. *)
Example navigate_two_elements :
  navigate net_robot "r1" [PyFloat 3; PyFloat 4] "L1" ready
    = (Raise IndexError, ready).
Proof. reflexivity. Qed.

(** C6, amended.  On a 200 answer whose JSON body is an object with the key
    "soc", battery_soc returns exactly the value under that key, with no
    range check: 0.75 for a body with "soc" 0.75, and a fraction between 0.0
    and 1.0 whenever the server sends one.  It returns 0.0 for another
    status, for an exception, and for a body from which "soc" cannot be
    read. *)
Theorem battery_soc_passes_value net n w :
  (forall r d v,
     net (sent w) (Request GET (prefix (self w) +:+ "/soc") None) = Responds r ->
     status_code r = 200 ->
     decoded r = Some (PyDict d) ->
     d !! "soc" = Some v ->
     fst (battery_soc net n w) = Return v /\
     (is_fraction v = true ->
      exists v', fst (battery_soc net n w) = Return v' /\ is_fraction v' = true)) /\
  (forall r,
     net (sent w) (Request GET (prefix (self w) +:+ "/soc") None) = Responds r ->
     status_code r <> 200 ->
     fst (battery_soc net n w) = Return (PyFloat 0)) /\
  (forall e,
     net (sent w) (Request GET (prefix (self w) +:+ "/soc") None) = Fails e ->
     fst (battery_soc net n w) = Return (PyFloat 0)) /\
  (forall r,
     net (sent w) (Request GET (prefix (self w) +:+ "/soc") None) = Responds r ->
     malformed "soc" (decoded r) ->
     fst (battery_soc net n w) = Return (PyFloat 0)).
Proof.
  destruct (battery_soc_run net w n) as (Hres & _ & _). rewrite Hres.
  split; [|split; [|split]].
  - intros r d v -> H200 Hbody Hkey.
    rewrite (field_or_found "soc" (PyFloat 0) r d v H200 Hbody Hkey).
    split; [reflexivity|]. intros Hfrac. exists v. auto.
  - intros r -> Hne. f_equal. apply field_or_failure. exact Hne.
  - intros e ->. reflexivity.
  - intros r -> Hbad. f_equal. apply field_or_malformed. exact Hbad.
Qed.

Lemma battery_soc_passes_value_witness :
  fst (battery_soc net_robot "r1" ready) = Return (PyFloat 0.75) /\
  fst (battery_soc (net_reply 500 None) "r1" ready) = Return (PyFloat 0) /\
  fst (battery_soc net_down "r1" ready) = Return (PyFloat 0) /\
  fst (battery_soc (net_reply 200 None) "r1" ready) = Return (PyFloat 0).
Proof.
  split; [|split; [|split]].
  - eapply (proj1 (battery_soc_passes_value net_robot "r1" ready)); reflexivity.
  - eapply (proj1 (proj2 (battery_soc_passes_value (net_reply 500 None) "r1" ready)));
      [reflexivity | cbn; discriminate].
  - eapply (proj1 (proj2 (proj2 (battery_soc_passes_value net_down "r1" ready))));
      reflexivity.
  - eapply (proj2 (proj2 (proj2
      (battery_soc_passes_value (net_reply 200 None) "r1" ready))));
      reflexivity.
Defined.

(** C6 as written fails: a server that answers 200 with "soc" 2.0 makes
    battery_soc return 2.0, which is not between 0.0 and 1.0. *)
Lemma battery_soc_out_of_range :
  net_soc (PyFloat 2) [] (Request GET "http://robot/soc" None)
    = Responds (Response 200 (Some (PyDict {[ "soc" := PyFloat 2 ]}))) /\
  fst (battery_soc (net_soc (PyFloat 2)) "r1" ready) = Return (PyFloat 2) /\
  is_fraction (PyFloat 2) = false.
Proof. split; [|split]; reflexivity. Qed.

(** C7, amended.  On a 200 answer to GET /nav_remaining_duration whose JSON
    body is an object with the key "duration", navigation_remaining_duration
    returns exactly the value under that key, with no sign check: a number
    of seconds that is not negative whenever the server sends one.  It
    returns 0.0 for another status, for an exception, and for a body from
    which "duration" cannot be read. *)
Theorem remaining_duration_passes_value net n w :
  (forall r d v,
     net (sent w) (Request GET (prefix (self w) +:+ "/nav_remaining_duration") None)
       = Responds r ->
     status_code r = 200 ->
     decoded r = Some (PyDict d) ->
     d !! "duration" = Some v ->
     fst (navigation_remaining_duration net n w) = Return v /\
     (is_nonnegative v = true ->
      exists v',
        fst (navigation_remaining_duration net n w) = Return v' /\
        is_nonnegative v' = true)) /\
  (forall r,
     net (sent w) (Request GET (prefix (self w) +:+ "/nav_remaining_duration") None)
       = Responds r ->
     status_code r <> 200 ->
     fst (navigation_remaining_duration net n w) = Return (PyFloat 0)) /\
  (forall e,
     net (sent w) (Request GET (prefix (self w) +:+ "/nav_remaining_duration") None)
       = Fails e ->
     fst (navigation_remaining_duration net n w) = Return (PyFloat 0)) /\
  (forall r,
     net (sent w) (Request GET (prefix (self w) +:+ "/nav_remaining_duration") None)
       = Responds r ->
     malformed "duration" (decoded r) ->
     fst (navigation_remaining_duration net n w) = Return (PyFloat 0)).
Proof.
  destruct (navigation_remaining_duration_run net w n) as (Hres & _ & _).
  rewrite Hres.
  split; [|split; [|split]].
  - intros r d v -> H200 Hbody Hkey.
    rewrite (field_or_found "duration" (PyFloat 0) r d v H200 Hbody Hkey).
    split; [reflexivity|]. intros Hpos. exists v. auto.
  - intros r -> Hne. f_equal. apply field_or_failure. exact Hne.
  - intros e ->. reflexivity.
  - intros r -> Hbad. f_equal. apply field_or_malformed. exact Hbad.
Qed.

Lemma remaining_duration_passes_value_witness :
  fst (navigation_remaining_duration net_robot "r1" ready)
    = Return (PyFloat 12.5) /\
  fst (navigation_remaining_duration (net_reply 503 None) "r1" ready)
    = Return (PyFloat 0) /\
  fst (navigation_remaining_duration net_down "r1" ready) = Return (PyFloat 0) /\
  fst (navigation_remaining_duration (net_reply 200 (Some (PyList []))) "r1" ready)
    = Return (PyFloat 0).
Proof.
  split; [|split; [|split]].
  - eapply (proj1 (remaining_duration_passes_value net_robot "r1" ready));
      reflexivity.
  - eapply (proj1 (proj2
      (remaining_duration_passes_value (net_reply 503 None) "r1" ready)));
      [reflexivity | cbn; discriminate].
  - eapply (proj1 (proj2 (proj2
      (remaining_duration_passes_value net_down "r1" ready))));
      reflexivity.
  - eapply (proj2 (proj2 (proj2
      (remaining_duration_passes_value (net_reply 200 (Some (PyList []))) "r1"
         ready))));
      [reflexivity | exact I].
Defined.

(** C7 as written fails: a server that answers 200 with "duration" -1.0
    makes navigation_remaining_duration return -1.0, a negative number. *)
Lemma remaining_duration_negative :
  net_duration (PyFloat (-1)) []
      (Request GET "http://robot/nav_remaining_duration" None)
    = Responds (Response 200 (Some (PyDict {[ "duration" := PyFloat (-1) ]}))) /\
  fst (navigation_remaining_duration (net_duration (PyFloat (-1))) "r1" ready)
    = Return (PyFloat (-1)) /\
  is_nonnegative (PyFloat (-1)) = false.
Proof. split; [|split]; reflexivity. Qed.

(** C8.  start_process and process_completed make no HTTP request and return
    true, for every robot name, process name and map name, and whatever the
    server would do. *)
Theorem stubs_return_true net n p map w :
  fst (start_process n p map w) = Return true /\
  sent (snd (start_process n p map w)) = sent w /\
  fst (process_completed n w) = Return true /\
  sent (snd (process_completed n w)) = sent w /\
  fst (invoke net (StartProcess n p map) w) = Return (PyBool true) /\
  sent (snd (invoke net (StartProcess n p map) w)) = sent w /\
  fst (invoke net (ProcessCompleted n) w) = Return (PyBool true) /\
  sent (snd (invoke net (ProcessCompleted n) w)) = sent w.
Proof. repeat (split; [reflexivity|]). reflexivity. Qed.

(** C9.  After construction the base address, user and secret keep the
    values the constructor was given, and the connected flag keeps the value
    the constructor left: no operation writes an attribute of the object,
    not even check_connection, so no sequence of operations changes them. *)
Theorem attributes_frozen_after_construction net p u pw w0 cs :
  (forall c w, self (snd (invoke net c w)) = self w) /\
  (forall w, self (snd (check_connection net w)) = self w) /\
  prefix (self (snd (session net cs (snd (__init__ net p u pw w0))))) = p /\
  user (self (snd (session net cs (snd (__init__ net p u pw w0))))) = u /\
  password (self (snd (session net cs (snd (__init__ net p u pw w0))))) = pw /\
  connected (self (snd (session net cs (snd (__init__ net p u pw w0)))))
    = connected (self (snd (__init__ net p u pw w0))).
Proof.
  split; [apply invoke_self|].
  split; [intros w; apply check_connection_run|].
  rewrite session_self.
  destruct (init_run net p u pw w0) as (_ & Hself & _).
  rewrite Hself. cbn. auto.
Qed.

(** C10.  The robot name has no effect: two invocations of an operation that
    differ only in the robot name, on the same object and against the same
    server, make the same requests, return the same result and leave the
    same world behind. *)
Theorem robot_name_unused net n1 n2 pose p map w :
  (forall c, invoke net (with_robot_name n2 c) w = invoke net c w) /\
  position net n1 w = position net n2 w /\
  navigate net n1 pose map w = navigate net n2 pose map w /\
  start_process n1 p map w = start_process n2 p map w /\
  stop net n1 w = stop net n2 w /\
  navigation_remaining_duration net n1 w
    = navigation_remaining_duration net n2 w /\
  navigation_completed net n1 w = navigation_completed net n2 w /\
  process_completed n1 w = process_completed n2 w /\
  battery_soc net n1 w = battery_soc net n2 w.
Proof.
  split; [intros c; destruct c; reflexivity|].
  repeat (split; [reflexivity|]). reflexivity.
Qed.

(** ** Further properties of the methods *)

(** stop makes exactly one request, a POST to /stop_nav under the base
    address with the JSON body that maps "bool" to true, and returns true
    exactly when the answer has status 200; the body of the answer is not
    read. *)
Theorem stop_posts_flag net n w :
  exists b,
    fst (stop net n w) = Return b /\
    sent (snd (stop net n w)) =
      sent w ++
        [Request POST (prefix (self w) +:+ "/stop_nav")
           (Some (PyDict {[ "bool" := PyBool true ]}))] /\
    (b = true <->
       exists r,
         net (sent w)
           (Request POST (prefix (self w) +:+ "/stop_nav")
              (Some (PyDict {[ "bool" := PyBool true ]})))
           = Responds r /\
         status_code r = 200).
Proof.
  destruct (stop_run net w n) as (Hres & _ & Hsent).
  eexists. split; [exact Hres|]. split; [exact Hsent|].
  apply accepted_true.
Qed.

(** navigation_completed makes exactly one request, a GET to /nav_stat
    under the base address, and returns true exactly when the answer has
    status 200: the body plays no part, so nothing the server could say in
    it turns a 200 into "not completed". *)
Theorem navigation_completed_reads_status net n w :
  exists b,
    fst (navigation_completed net n w) = Return b /\
    sent (snd (navigation_completed net n w)) =
      sent w ++ [Request GET (prefix (self w) +:+ "/nav_stat") None] /\
    (b = true <->
       exists r,
         net (sent w) (Request GET (prefix (self w) +:+ "/nav_stat") None)
           = Responds r /\
         status_code r = 200).
Proof.
  destruct (navigation_completed_run net w n) as (Hres & _ & Hsent).
  eexists. split; [exact Hres|]. split; [exact Hsent|].
  apply accepted_true.
Qed.


(** navigate reads the first three elements of the pose and nothing else:
    further elements, the map name and the robot name change neither the
    request nor the result. *)
Theorem navigate_reads_first_three net n n' x y theta rest map map' w :
  fst (navigate net n (x :: y :: theta :: rest) map w)
    = fst (navigate net n' [x; y; theta] map' w) /\
  sent (snd (navigate net n (x :: y :: theta :: rest) map w))
    = sent (snd (navigate net n' [x; y; theta] map' w)).
Proof.
  destruct (navigate_run net w n x y theta rest map) as (Hres & _ & Hsent).
  destruct (navigate_run net w n' x y theta [] map') as (Hres' & _ & Hsent').
  split; congruence.
Qed.

(** The user name, the password and the connected flag are stored and never
    read: on two objects with the same base address an operation returns
    the same result, makes the same requests and prints the same lines.  No
    credential reaches the wire, and a false connected flag blocks
    nothing. *)
Theorem credentials_never_used net c s1 s2 h out :
  prefix s1 = prefix s2 ->
  fst (invoke net c (World s1 h out)) = fst (invoke net c (World s2 h out)) /\
  sent (snd (invoke net c (World s1 h out)))
    = sent (snd (invoke net c (World s2 h out))) /\
  stdout (snd (invoke net c (World s1 h out)))
    = stdout (snd (invoke net c (World s2 h out))).
Proof.
  destruct s1 as [p1 u1 pw1 f1], s2 as [p2 u2 pw2 f2]. cbn [prefix].
  intros <-.
  destruct c as [|n|n pose map|n p map|n|n|n|n|n]; cbn [invoke];
    try (destruct pose as [|x [|y [|theta rest]]]);
    unfold check_connection, position, navigate, start_process, stop,
      navigation_remaining_duration, navigation_completed, process_completed,
      battery_soc;
    unfold_monad; cbn; split_outcome; auto.
Qed.

Lemma credentials_never_used_witness :
  fst (invoke net_robot (BatterySoc "r1") (World robot [] []))
    = fst (invoke net_robot (BatterySoc "r1") (World robot_guest [] [])) /\
  sent (snd (invoke net_robot (BatterySoc "r1") (World robot [] [])))
    = sent (snd (invoke net_robot (BatterySoc "r1") (World robot_guest [] []))) /\
  stdout (snd (invoke net_robot (BatterySoc "r1") (World robot [] [])))
    = stdout (snd (invoke net_robot (BatterySoc "r1") (World robot_guest [] []))).
Proof.
  apply (credentials_never_used net_robot (BatterySoc "r1") robot robot_guest).
  reflexivity.
Defined.

Lemma wire_request_url s c rq :
  wire_request s c = Some rq -> exists path, url rq = prefix s +:+ path.
Proof.
  destruct c as [|n|n pose map|n p map|n|n|n|n|n]; cbn [wire_request];
    try (destruct pose as [|x [|y [|theta rest]]]);
    intros Hrq; try discriminate; injection Hrq as <-; cbn [url]; eauto.
Qed.

(** There is no retry and no stray traffic: a sequence of calls leaves the
    earlier requests in place, adds at most one request per call, and every
    request it adds goes to an address that starts with the configured base
    address. *)
Theorem session_appends_requests net cs w :
  exists new,
    sent (snd (session net cs w)) = sent w ++ new /\
    (length new <= length cs)%nat /\
    Forall (fun rq => exists path, url rq = prefix (self w) +:+ path) new.
Proof.
  revert w. induction cs as [|c cs IH]; intros w.
  - exists []. cbn. rewrite app_nil_r. auto.
  - cbn [session]. unfold bind at 1.
    pose proof (invoke_sent net c w) as Hsent.
    pose proof (invoke_self net c w) as Hself.
    assert (Hone : (length (option_list (wire_request (self w) c)) <= 1)%nat)
      by (destruct (wire_request (self w) c); cbn; lia).
    assert (Hurl : Forall (fun rq => exists path, url rq = prefix (self w) +:+ path)
                     (option_list (wire_request (self w) c))).
    { destruct (wire_request (self w) c) as [rq|] eqn:Hrq; cbn; [|constructor].
      constructor; [|constructor]. eapply wire_request_url, Hrq. }
    destruct (invoke net c w) as [[v|e] w1]; cbn [fst snd] in *.
    + destruct (IH w1) as (new & Hnew & Hlen & Hall).
      exists (option_list (wire_request (self w) c) ++ new).
      unfold bind at 1.
      destruct (session net cs w1) as [[vs|e] w2]; cbn [fst snd ret] in *;
        (split; [rewrite Hnew, Hsent, <- app_assoc; reflexivity|]);
        (split; [rewrite length_app; cbn [length]; lia|]);
        (apply Forall_app; split; [exact Hurl | rewrite <- Hself; exact Hall]).
    + exists (option_list (wire_request (self w) c)).
      split; [exact Hsent|]. split; [cbn [length]; lia | exact Hurl].
Qed.

(** Construction in full: it makes exactly one request, a GET to /health
    under the base address it was just given (not the one the attribute held
    before), sets connected to whether that request was answered with status
    200, and prints one verdict, after the exception if one was caught.
    Nothing of the object's earlier attributes survives. *)
Theorem construction_probes_new_address net p u pw w :
  __init__ net p u pw w =
    (Return tt,
     World
       (mkRobotAPI p u pw
          (accepted (net (sent w) (Request GET (p +:+ "/health") None))))
       (sent w ++ [Request GET (p +:+ "/health") None])
       (stdout w ++
          probe_report (net (sent w) (Request GET (p +:+ "/health") None)))).
Proof.
  unfold __init__, check_connection, probe_report. unfold_monad. cbn.
  split_outcome; rewrite <- ?app_assoc; reflexivity.
Qed.

(** What the query methods report on the console.  A status other than 200
    is a silent failure: nothing is printed.  A caught exception is printed
    once, and tells the causes apart that the return value merges: the
    transport's exception, a body that is not JSON, a body that is not an
    object, a missing key. *)
Theorem query_methods_log net n w :
  stdout (snd (position net n w)) =
    stdout w ++
      diagnostics "position"
        (net (sent w) (Request GET (prefix (self w) +:+ "/current_position") None)) /\
  stdout (snd (navigation_remaining_duration net n w)) =
    stdout w ++
      diagnostics "duration"
        (net (sent w)
           (Request GET (prefix (self w) +:+ "/nav_remaining_duration") None)) /\
  stdout (snd (battery_soc net n w)) =
    stdout w ++
      diagnostics "soc"
        (net (sent w) (Request GET (prefix (self w) +:+ "/soc") None)).
Proof.
  unfold position, navigation_remaining_duration, battery_soc, diagnostics.
  unfold_monad. cbn.
  split; [|split]; split_outcome; rewrite ?app_nil_r; reflexivity.
Qed.

(** Each query method makes exactly one request, a GET without body to its
    own path under the base address, whatever comes back: position to
    /current_position, navigation_remaining_duration to
    /nav_remaining_duration, battery_soc to /soc. *)
Theorem query_methods_request net n w :
  sent (snd (position net n w)) =
    sent w ++ [Request GET (prefix (self w) +:+ "/current_position") None] /\
  sent (snd (navigation_remaining_duration net n w)) =
    sent w ++ [Request GET (prefix (self w) +:+ "/nav_remaining_duration") None] /\
  sent (snd (battery_soc net n w)) =
    sent w ++ [Request GET (prefix (self w) +:+ "/soc") None].
Proof.
  split; [|split].
  - apply position_run.
  - apply navigation_remaining_duration_run.
  - apply battery_soc_run.
Qed.

(** The return value of a query method cannot tell a failure from a server
    that reports the default itself: an answer with "soc" 0.0, "duration"
    0.0 or "position" null gives the same result as any transport failure. *)
Theorem default_value_hides_failure net_ok net_bad n w :
  (forall r d,
     net_ok (sent w) (Request GET (prefix (self w) +:+ "/soc") None)
       = Responds r ->
     status_code r = 200 ->
     decoded r = Some (PyDict d) ->
     d !! "soc" = Some (PyFloat 0) ->
     transport_failure
       (net_bad (sent w) (Request GET (prefix (self w) +:+ "/soc") None)) ->
     fst (battery_soc net_ok n w) = fst (battery_soc net_bad n w)) /\
  (forall r d,
     net_ok (sent w)
         (Request GET (prefix (self w) +:+ "/nav_remaining_duration") None)
       = Responds r ->
     status_code r = 200 ->
     decoded r = Some (PyDict d) ->
     d !! "duration" = Some (PyFloat 0) ->
     transport_failure
       (net_bad (sent w)
          (Request GET (prefix (self w) +:+ "/nav_remaining_duration") None)) ->
     fst (navigation_remaining_duration net_ok n w)
       = fst (navigation_remaining_duration net_bad n w)) /\
  (forall r d,
     net_ok (sent w) (Request GET (prefix (self w) +:+ "/current_position") None)
       = Responds r ->
     status_code r = 200 ->
     decoded r = Some (PyDict d) ->
     d !! "position" = Some PyNone ->
     transport_failure
       (net_bad (sent w)
          (Request GET (prefix (self w) +:+ "/current_position") None)) ->
     fst (position net_ok n w) = fst (position net_bad n w)).
Proof.
  split; [|split]; intros r d Hok H200 Hbody Hkey Hbad.
  - destruct (battery_soc_run net_ok w n) as (-> & _ & _).
    destruct (battery_soc_run net_bad w n) as (-> & _ & _).
    rewrite Hok, (field_or_found _ _ r d _ H200 Hbody Hkey).
    rewrite (field_or_failure _ _ _ Hbad). reflexivity.
  - destruct (navigation_remaining_duration_run net_ok w n) as (-> & _ & _).
    destruct (navigation_remaining_duration_run net_bad w n) as (-> & _ & _).
    rewrite Hok, (field_or_found _ _ r d _ H200 Hbody Hkey).
    rewrite (field_or_failure _ _ _ Hbad). reflexivity.
  - destruct (position_run net_ok w n) as (-> & _ & _).
    destruct (position_run net_bad w n) as (-> & _ & _).
    rewrite Hok, (field_or_found _ _ r d _ H200 Hbody Hkey).
    rewrite (field_or_failure _ _ _ Hbad). reflexivity.
Qed.

Lemma default_value_hides_failure_witness :
  fst (battery_soc net_zero "r1" ready) = fst (battery_soc net_down "r1" ready) /\
  fst (navigation_remaining_duration net_zero "r1" ready)
    = fst (navigation_remaining_duration (net_reply 500 None) "r1" ready) /\
  fst (position net_zero "r1" ready) = fst (position net_down "r1" ready).
Proof.
  split; [|split].
  - eapply (proj1 (default_value_hides_failure net_zero net_down "r1" ready));
      [reflexivity | reflexivity | reflexivity | reflexivity | exact I].
  - eapply (proj1 (proj2
      (default_value_hides_failure net_zero (net_reply 500 None) "r1" ready)));
      [reflexivity | reflexivity | reflexivity | reflexivity | cbn; discriminate].
  - eapply (proj2 (proj2
      (default_value_hides_failure net_zero net_down "r1" ready)));
      [reflexivity | reflexivity | reflexivity | reflexivity | exact I].
Defined.

(** The connected flag is the result of the constructor's probe: if the
    server answers a second /health request as it answered the first, a call
    of check_connection right after construction returns the value of the
    flag. *)
Theorem flag_matches_stable_probe net p u pw w :
  net (sent w ++ [Request GET (p +:+ "/health") None])
      (Request GET (p +:+ "/health") None)
    = net (sent w) (Request GET (p +:+ "/health") None) ->
  fst (check_connection net (snd (__init__ net p u pw w)))
    = Return (connected (self (snd (__init__ net p u pw w)))).
Proof.
  intros Hstable.
  destruct (init_run net p u pw w) as (_ & Hself & Hsent).
  destruct (check_connection_run net (snd (__init__ net p u pw w)))
    as (Hres & _ & _).
  rewrite Hres, Hself, Hsent. cbn [prefix connected].
  rewrite Hstable. reflexivity.
Qed.

Lemma flag_matches_stable_probe_witness :
  fst (check_connection net_robot
         (snd (__init__ net_robot "http://robot" "admin" "secret" fresh)))
    = Return (connected
        (self (snd (__init__ net_robot "http://robot" "admin" "secret" fresh)))).
Proof.
  apply (flag_matches_stable_probe net_robot "http://robot" "admin" "secret" fresh).
  reflexivity.
Defined.
